(** * CTO AI Code: the assistant facade of [cto_ai_code.py]

    A shallow embedding of the class [CTOAICode] and of the few Python
    builtins it calls, followed by the properties of its constructor and
    of its three operations.

    Conventions of the embedding.
    - A Python [str] is a Rocq [string]: the sequence of the bytes of its
      UTF-8 encoding, a lone surrogate, which has none, being written
      with the three bytes of the generalised encoding.  Concatenation,
      splitting on a line feed and containment act on the encoding
      exactly as they act on the text.
    - [Optional[str]] is [option string].
    - A Python call is a computation [Py A]: it reads and extends a
      [world] (the process environment and the trace of what the program
      asked of the outside) and either returns a value or raises.
    - [os.getenv] and [print] encode what they are given, the first with
      the encoding of the file system and the second with that of the
      standard output, and raise [UnicodeEncodeError] when that fails.
      What each encoding accepts is the [Platform] the program runs on.
      Where a statement names no platform it is about [lenient], a
      platform whose two encodings accept every text, as UTF-8 does for
      every text without a lone surrogate; the statements that name a
      platform hold on each, or on the one they name.
    - [str.upper] is a builtin whose Unicode tables are not part of the
      repository: the class is embedded in a section over it.
    - The functions [main] of [cto_ai_code.py] and the functions of
      [examples.py] are computations [Script A], which can also raise
      [KeyError] and [TypeError]; [repr] on a text is taken as [str.upper]
      is. *)

From Stdlib Require Import ZArith Ascii String DecimalString DecimalNat.
From stdpp Require Import base option list strings gmap.

Local Open Scope Z_scope.

(** ** Python values and builtins *)

(** The values stored in the dictionary built by [_mock_review_code]. *)
#[local] Unset Elimination Schemes.
Inductive value : Type :=
  | VStr (s : string)
  | VInt (z : Z)
  | VList (l : list value).
#[local] Set Elimination Schemes.

Inductive exn : Type :=
  | ValueError (msg : string)
  | UnicodeEncodeError (text : string).

Inductive outcome (A : Type) : Type :=
  | Returned (a : A)
  | Raised (e : exn).
Arguments Returned {A} a.
Arguments Raised {A} e.

(** What the program asks of the outside, in the order it asks. *)
Inductive event : Type :=
  | Getenv (name : string)
  | Print (text : string).

(** [environ] is [os.environ] as the constructor finds it, that is after
    the module-level [load_dotenv()] has run. *)
Record world : Type := World {
  environ : gmap string string;
  events : list event
}.

Definition log (e : event) (w : world) : world :=
  World (environ w) (events w ++ [e]).

Definition Py (A : Type) : Type := world -> outcome A * world.

Definition py_ret {A} (a : A) : Py A := fun w => (Returned a, w).

Definition py_bind {A B} (m : Py A) (k : A -> Py B) : Py B :=
  fun w =>
    match m w with
    | (Returned a, w') => k a w'
    | (Raised e, w') => (Raised e, w')
    end.

Definition lift {A} (o : outcome A) : Py A := fun w => (o, w).

(** With these two instances [x ← m; k] and [m;; k] sequence Python
    statements. *)
#[global] Instance py_mret : MRet Py := @py_ret.
#[global] Instance py_mbind : MBind Py := fun A B k m => py_bind m k.

(** The line feed and the double quote, the two characters of the
    templates that a literal cannot hold. *)
Definition LF : string := String "010"%char EmptyString.
Definition DQ : string := String "034"%char EmptyString.

(** [str(n)] for a non-negative [int]. *)
Definition str_of_nat (n : nat) : string :=
  NilZero.string_of_uint (Nat.to_uint n).

(** [int(s)] for a text of decimal digits. *)
Definition nat_of_str (s : string) : option nat :=
  option_map Nat.of_uint (NilZero.uint_of_string s).

(** [s.split(sep)]: the pieces of [s] between the occurrences of [sep],
    found left to right without overlap; [ValueError] on an empty [sep].
    [skip] counts the characters of a matched separator still to pass,
    [cur] is the piece being read. *)
Fixpoint split_from (sep : string) (skip : nat) (cur s : string) : list string :=
  match s with
  | EmptyString => [cur]
  | String c s' =>
      match skip with
      | S k => split_from sep k cur s'
      | O =>
          if String.prefix sep s
          then cur :: split_from sep (Nat.pred (String.length sep)) EmptyString s'
          else split_from sep O (cur +:+ String c EmptyString) s'
      end
  end.

Definition str_split (s sep : string) : outcome (list string) :=
  match sep with
  | EmptyString => Raised (ValueError "empty separator")
  | _ => Returned (split_from sep O EmptyString s)
  end.

(** [sep.join(l)]. *)
Fixpoint str_join (sep : string) (l : list string) : string :=
  match l with
  | [] => EmptyString
  | [x] => x
  | x :: l' => x +:+ sep +:+ str_join sep l'
  end.

(** [sub in s]. *)
Definition contains (s sub : string) : Prop :=
  exists pre post : string, s = pre +:+ sub +:+ post.

(** The number of line feeds of a text. *)
Fixpoint count_LF (s : string) : nat :=
  match s with
  | EmptyString => O
  | String c s' => (if Ascii.eqb c "010" then 1 else 0) + count_LF s'
  end%nat.

(** Truth value of an [Optional[str]]: [None] and the empty string are
    false. *)
Definition truthy (v : option string) : bool :=
  match v with
  | None => false
  | Some EmptyString => false
  | Some (String _ _) => true
  end.

(** [a or b]: [b] is evaluated only when [a] is false. *)
Definition py_or (a : option string) (b : Py (option string)) : Py (option string) :=
  if truthy a then py_ret a else b.

(** What the two encodings of the platform accept: [fs_encodes] is the
    encoding of the file system, with which [os.environ] encodes a name
    before it looks it up, and [stdout_encodes] that of the standard
    output, with which [print] encodes a text before it writes it. *)
Class Platform : Type := {
  fs_encodes : string -> bool;
  stdout_encodes : string -> bool
}.

(** [os.getenv(name)]: the name is encoded first, and the environment is
    asked only when that succeeds. *)
Definition os_getenv {P : Platform} (name : string) : Py (option string) :=
  fun w =>
    if fs_encodes name
    then (Returned (environ w !! name), log (Getenv name) w)
    else (Raised (UnicodeEncodeError name), w).

(** [print(text)]: the text is encoded first, and nothing is written
    when that fails. *)
Definition print {P : Platform} (text : string) : Py unit :=
  fun w =>
    if stdout_encodes text
    then (Returned tt, log (Print text) w)
    else (Raised (UnicodeEncodeError text), w).

(** A text of ASCII characters only. *)
Fixpoint is_ascii (s : string) : bool :=
  match s with
  | EmptyString => true
  | String c s' => (nat_of_ascii c <? 128)%nat && is_ascii s'
  end.

(** The surrogates of a text.  In the generalised encoding a surrogate
    is the byte 237 followed by a byte from 160 to 191; the second byte
    is 178 or 179 exactly for the surrogates from U+DC80 to U+DCFF, the
    ones the error handler [surrogateescape] turns back into bytes.
    [no_surrogate keep s] holds when [s] has no surrogate, those just
    named apart when [keep] is set. *)
Fixpoint no_surrogate (keep : bool) (s : string) : bool :=
  match s with
  | EmptyString => true
  | String c s' =>
      match s' with
      | EmptyString => true
      | String d _ =>
          let high := nat_of_ascii d in
          negb ((nat_of_ascii c =? 237)%nat
                && (160 <=? high)%nat && (high <=? 191)%nat
                && negb (keep && ((high =? 178) || (high =? 179))%nat))
          && no_surrogate keep s'
      end
  end.

(** A platform that refuses nothing. *)
Definition lenient : Platform :=
  {| fs_encodes := fun _ => true; stdout_encodes := fun _ => true |}.

(** POSIX with UTF-8 everywhere: names are encoded with
    [surrogateescape], the standard output is strict. *)
Definition posix_utf8 : Platform :=
  {| fs_encodes := no_surrogate true; stdout_encodes := no_surrogate false |}.

(** The same with an ASCII standard output, as under
    [PYTHONIOENCODING=ascii]. *)
Definition posix_ascii_stdout : Platform :=
  {| fs_encodes := no_surrogate true; stdout_encodes := is_ascii |}.

(** The lone surrogate U+D800 and the euro sign. *)
Definition SURROGATE : string :=
  String "237" (String "160" (String "128" EmptyString)).
Definition EURO : string :=
  String "226" (String "130" (String "172" EmptyString)).

(** [str.upper] on the ASCII letters, for the concrete runs. *)
Definition ascii_upper_char (c : ascii) : ascii :=
  let n := nat_of_ascii c in
  if ((97 <=? n) && (n <=? 122))%nat then ascii_of_nat (n - 32) else c.

Fixpoint ascii_upper (s : string) : string :=
  match s with
  | EmptyString => EmptyString
  | String c s' => String (ascii_upper_char c) (ascii_upper s')
  end.

(** ** The class [CTOAICode] *)

(** The two attributes an instance carries. *)
Record CTOAICode : Type := Build_CTOAICode {
  provider : string;
  api_key : option string
}.

Section Facade.

Context {P : Platform}.

(** The builtin [str.upper]. *)
Variable str_upper : string -> string.

(** The environment variable the constructor reads for a provider. *)
Definition env_name (provider : string) : string :=
  str_upper provider +:+ "_API_KEY".

Definition warning (provider : string) : string :=
  "Warning: No API key provided for " +:+ provider.

(** [CTOAICode(api_key, provider)]: the attributes are set by
    [__init__]; the computation returns the instance it initialised. *)
Definition __init__ (api_key_ : option string) (provider_ : string) : Py CTOAICode :=
  key ← py_or api_key_ (os_getenv (env_name provider_));
  let self := Build_CTOAICode provider_ key in
  (if negb (truthy self.(api_key))
   then print (warning provider_)
   else mret tt);;
  mret self.

Definition _mock_generate_code (self : CTOAICode) (prompt language : string) : Py string :=
  mret ("# Generated " +:+ language +:+ " code for: " +:+ prompt +:+ LF
        +:+ LF
        +:+ "def example_function():" +:+ LF
        +:+ "    " +:+ DQ +:+ DQ +:+ DQ +:+ LF
        +:+ "    This is a mock implementation." +:+ LF
        +:+ "    In production, this would use an AI API to generate actual code." +:+ LF
        +:+ "    " +:+ DQ +:+ DQ +:+ DQ +:+ LF
        +:+ "    print(" +:+ DQ +:+ "Hello from CTO AI Code!" +:+ DQ +:+ ")" +:+ LF
        +:+ "    return True" +:+ LF).

Definition _mock_review_code (self : CTOAICode) (code : string) : Py (gmap string value) :=
  mret (list_to_map [
    ("status", VStr "success");
    ("issues", VList []);
    ("suggestions", VList [
       VStr "Consider adding more comments";
       VStr "Add type hints for better code clarity"
     ]);
    ("score", VInt 85);
    ("summary", VStr "Code looks good overall. Minor improvements suggested.")
  ]).

Definition _mock_explain_code (self : CTOAICode) (code : string) : Py string :=
  segments ← lift (str_split code LF);
  let lines := length segments in
  mret ("Code Analysis:" +:+ LF
        +:+ "- This code has " +:+ str_of_nat lines +:+ " lines" +:+ LF
        +:+ "- In production, this would provide detailed explanation using AI" +:+ LF
        +:+ "- Currently running in mock mode without API key" +:+ LF).

Definition generate_code (self : CTOAICode) (prompt language : string) : Py string :=
  if negb (truthy self.(api_key))
  then _mock_generate_code self prompt language
  else _mock_generate_code self prompt language.

Definition review_code (self : CTOAICode) (code : string) : Py (gmap string value) :=
  if negb (truthy self.(api_key))
  then _mock_review_code self code
  else _mock_review_code self code.

Definition explain_code (self : CTOAICode) (code : string) : Py string :=
  if negb (truthy self.(api_key))
  then _mock_explain_code self code
  else _mock_explain_code self code.

End Facade.

(** A computation returns in a world when it ends with a value. *)
Definition returns {A} (m : Py A) (w : world) : Prop :=
  exists (a : A) (w' : world), m w = (Returned a, w').

(** The names the trace shows were looked up in the environment, and the
    texts it shows were printed. *)
Definition getenv_calls (evs : list event) : list string :=
  omap (fun e => match e with Getenv n => Some n | Print _ => None end) evs.

Definition printed (evs : list event) : list string :=
  omap (fun e => match e with Print t => Some t | Getenv _ => None end) evs.

(** The text of the explanation around a line count written [count]. *)
Definition explanation_text (count : string) : string :=
  "Code Analysis:" +:+ LF
  +:+ "- This code has " +:+ count +:+ " lines" +:+ LF
  +:+ "- In production, this would provide detailed explanation using AI" +:+ LF
  +:+ "- Currently running in mock mode without API key" +:+ LF.

(** The review dictionary, key by key. *)
Definition fixed_review (r : gmap string value) : Prop :=
  r !! "status" = Some (VStr "success")
  /\ r !! "issues" = Some (VList [])
  /\ r !! "suggestions" =
       Some (VList [VStr "Consider adding more comments";
                    VStr "Add type hints for better code clarity"])
  /\ r !! "score" = Some (VInt 85)
  /\ r !! "summary" =
       Some (VStr "Code looks good overall. Minor improvements suggested.")
  /\ dom r = list_to_set ["status"; "issues"; "suggestions"; "score"; "summary"].

Ltac py_unfold :=
  unfold py_or, mbind, py_mbind, py_bind, mret, py_mret, py_ret, lift,
    os_getenv, print in *.

(** ** The demonstration scripts *)

(** The functions [main] of [cto_ai_code.py] and of [examples.py] drive
    the class and print what it returns.  They index the dictionary of a
    review, join and iterate over its values and write them into
    f-strings: beside what the class can raise, they can raise
    [KeyError] and [TypeError]. *)
Inductive exception : Type :=
  | Builtin (e : exn)
  | KeyError (key : string)
  | TypeError (msg : string).

Inductive result (A : Type) : Type :=
  | Value (a : A)
  | Thrown (e : exception).
Arguments Value {A} a.
Arguments Thrown {A} e.

Definition Script (A : Type) : Type := world -> result A * world.

Definition script_ret {A} (a : A) : Script A := fun w => (Value a, w).

Definition script_bind {A B} (m : Script A) (k : A -> Script B) : Script B :=
  fun w =>
    match m w with
    | (Value a, w') => k a w'
    | (Thrown e, w') => (Thrown e, w')
    end.

Definition throw {A} (e : exception) : Script A := fun w => (Thrown e, w).

(** A call of the class, or of a builtin of the class, from a script. *)
Definition call {A} (m : Py A) : Script A :=
  fun w =>
    match m w with
    | (Returned a, w') => (Value a, w')
    | (Raised e, w') => (Thrown (Builtin e), w')
    end.

#[global] Instance script_mret : MRet Script := @script_ret.
#[global] Instance script_mbind : MBind Script :=
  fun A B k m => script_bind m k.

(** [for x in l: body]. *)
Fixpoint for_each {A} (l : list A) (body : A -> Script unit) : Script unit :=
  match l with
  | [] => mret tt
  | x :: l' => body x;; for_each l' body
  end.

(** [enumerate(l, start)]. *)
Fixpoint enumerate {A} (l : list A) (start : nat) : list (nat * A) :=
  match l with
  | [] => []
  | x :: l' => (start, x) :: enumerate l' (S start)
  end.

(** [s * n]. *)
Fixpoint str_repeat (s : string) (n : nat) : string :=
  match n with
  | O => EmptyString
  | S n' => s +:+ str_repeat s n'
  end.

(** [str(z)] for an [int]. *)
Definition str_of_Z (z : Z) : string :=
  NilZero.string_of_int (Z.to_int z).

(** [d[key]]. *)
Definition getitem (d : gmap string value) (key : string) : Script value :=
  match d !! key with
  | Some v => mret v
  | None => throw (KeyError key)
  end.

(** The truth value of a value: an empty text, zero and an empty list
    are false. *)
Definition py_bool (v : value) : bool :=
  match v with
  | VStr EmptyString => false
  | VStr (String _ _) => true
  | VInt z => negb (z =? 0)
  | VList [] => false
  | VList (_ :: _) => true
  end.

Definition type_name (v : value) : string :=
  match v with
  | VStr _ => "str"
  | VInt _ => "int"
  | VList _ => "list"
  end.

(** The characters of a text: in the UTF-8 encoding, a byte of the form
    [10xxxxxx] continues the character begun before it. *)
Definition is_continuation (c : ascii) : bool :=
  let n := nat_of_ascii c in ((128 <=? n) && (n <? 192))%nat.

Fixpoint code_points (s : string) : list string :=
  match s with
  | EmptyString => []
  | String c s' =>
      match s' with
      | EmptyString => [String c EmptyString]
      | String d _ =>
          if is_continuation d
          then match code_points s' with
               | g :: gs => String c g :: gs
               | [] => [String c EmptyString]
               end
          else String c EmptyString :: code_points s'
      end
  end.

(** [iter(v)], run to its end: the elements of a list, the characters
    of a text. *)
Definition py_iter (v : value) : Script (list value) :=
  match v with
  | VList l => mret l
  | VStr s => mret (map VStr (code_points s))
  | VInt _ => throw (TypeError "'int' object is not iterable")
  end.

(** The check [str.join] makes of each item, the first offender
    reported with its index. *)
Fixpoint join_items (i : nat) (l : list value) : result (list string) :=
  match l with
  | [] => Value []
  | VStr s :: l' =>
      match join_items (S i) l' with
      | Value r => Value (s :: r)
      | Thrown e => Thrown e
      end
  | v :: _ =>
      Thrown (TypeError ("sequence item " +:+ str_of_nat i
                         +:+ ": expected str instance, "
                         +:+ type_name v +:+ " found"))
  end.

(** [sep.join(v)]. *)
Definition py_join (sep : string) (v : value) : Script string :=
  match v with
  | VInt _ => throw (TypeError "can only join an iterable")
  | _ =>
      items ← py_iter v;
      match join_items O items with
      | Value texts => mret (str_join sep texts)
      | Thrown e => throw e
      end
  end.

(** The four bytes of the robot face that opens the examples. *)
Definition ROBOT : string :=
  String "240" (String "159" (String "164" (String "150" EmptyString))).

Section Scripts.

Context {P : Platform}.
Variable str_upper : string -> string.

(** The builtin [repr] on a text; its escapes follow the Unicode tables,
    which are not part of the repository. *)
Variable repr_str : string -> string.

(** [repr(v)]. *)
Fixpoint py_repr (v : value) : string :=
  match v with
  | VStr s => repr_str s
  | VInt z => str_of_Z z
  | VList l => "[" +:+ str_join ", " (map py_repr l) +:+ "]"
  end.

(** [str(v)], which is what an f-string writes for [{v}]. *)
Definition py_str (v : value) : string :=
  match v with
  | VStr s => s
  | _ => py_repr v
  end.

(** [main] of [cto_ai_code.py].  [CTOAICode()] is the constructor with
    its defaults, no key and provider ["openai"]; [generate_code] is
    called with its default language ["python"]. *)
Definition main : Script unit :=
  call (print ("=== CTO AI Code - AI-Powered Code Assistant ===" +:+ LF));;
  assistant ← call (__init__ str_upper None "openai");
  call (print "1. Generating code...");;
  code ← call (generate_code assistant
                 "Create a function to calculate fibonacci numbers" "python");
  call (print code);;
  call (print (LF +:+ "2. Reviewing code..."));;
  let sample_code :=
    LF +:+ "def add(a, b):" +:+ LF +:+ "    return a + b" +:+ LF in
  review ← call (review_code assistant sample_code);
  score ← getitem review "score";
  call (print ("Review Score: " +:+ py_str score +:+ "/100"));;
  summary ← getitem review "summary";
  call (print ("Summary: " +:+ py_str summary));;
  suggestions ← getitem review "suggestions";
  joined ← py_join ", " suggestions;
  call (print ("Suggestions: " +:+ joined));;
  call (print (LF +:+ "3. Explaining code..."));;
  explanation ← call (explain_code assistant sample_code);
  call (print explanation).

End Scripts.

(** The functions of [examples.py]. *)
Module examples.
Section Run.

Context {P : Platform}.
Variable str_upper : string -> string.
Variable repr_str : string -> string.

(** The body of the loop of [example_code_generation]. *)
Definition example_code_generation_body (assistant : CTOAICode)
    (item : string * string) : Script unit :=
  let '(prompt, lang) := item in
  call (print (LF +:+ "Prompt: " +:+ prompt +:+ " (" +:+ lang +:+ ")"));;
  call (print (str_repeat "-" 60));;
  code ← call (generate_code assistant prompt lang);
  call (print code).

Definition example_code_generation : Script unit :=
  call (print (str_repeat "=" 60));;
  call (print "Example 1: Code Generation");;
  call (print (str_repeat "=" 60));;
  assistant ← call (__init__ str_upper None "openai");
  let prompts := [
    ("Create a function to sort a list", "python");
    ("Write a REST API endpoint", "python");
    ("Create a function to validate email", "javascript")
  ] in
  for_each prompts (example_code_generation_body assistant).

(** The body of the outer loop of [example_code_review]; the dictionary
    is indexed by ["suggestions"] once for the test and once more for
    the inner loop. *)
Definition example_code_review_body (assistant : CTOAICode)
    (item : nat * string) : Script unit :=
  let '(i, code) := item in
  call (print (LF +:+ "Reviewing Code Sample " +:+ str_of_nat i +:+ ":"));;
  call (print (str_repeat "-" 60));;
  call (print code);;
  call (print (LF +:+ "Review Results:"));;
  review ← call (review_code assistant code);
  score ← getitem review "score";
  call (print ("  Score: " +:+ py_str repr_str score +:+ "/100"));;
  summary ← getitem review "summary";
  call (print ("  Summary: " +:+ py_str repr_str summary));;
  tested ← getitem review "suggestions";
  if py_bool tested
  then
    call (print "  Suggestions:");;
    suggestions ← getitem review "suggestions";
    items ← py_iter suggestions;
    for_each items (fun suggestion =>
      call (print ("    - " +:+ py_str repr_str suggestion)))
  else mret tt.

Definition example_code_review : Script unit :=
  call (print (LF +:+ str_repeat "=" 60));;
  call (print "Example 2: Code Review");;
  call (print (str_repeat "=" 60));;
  assistant ← call (__init__ str_upper None "openai");
  let code_samples := [
    LF +:+ "def calculate_sum(numbers):" +:+ LF
    +:+ "    total = 0" +:+ LF
    +:+ "    for num in numbers:" +:+ LF
    +:+ "        total += num" +:+ LF
    +:+ "    return total" +:+ LF;
    LF +:+ "class UserManager:" +:+ LF
    +:+ "    def __init__(self):" +:+ LF
    +:+ "        self.users = []" +:+ LF
    +:+ "    " +:+ LF
    +:+ "    def add_user(self, name, email):" +:+ LF
    +:+ "        self.users.append({'name': name, 'email': email})" +:+ LF
  ] in
  for_each (enumerate code_samples 1) (example_code_review_body assistant).

Definition example_code_explanation : Script unit :=
  call (print (LF +:+ str_repeat "=" 60));;
  call (print "Example 3: Code Explanation");;
  call (print (str_repeat "=" 60));;
  assistant ← call (__init__ str_upper None "openai");
  let code :=
    LF +:+ "def fibonacci(n):" +:+ LF
    +:+ "    if n <= 1:" +:+ LF
    +:+ "        return n" +:+ LF
    +:+ "    return fibonacci(n-1) + fibonacci(n-2)" +:+ LF in
  call (print "Code to explain:");;
  call (print (str_repeat "-" 60));;
  call (print code);;
  call (print (LF +:+ "Explanation:"));;
  call (print (str_repeat "-" 60));;
  explanation ← call (explain_code assistant code);
  call (print explanation).

Definition main : Script unit :=
  call (print (LF +:+ ROBOT +:+ " CTO AI Code - Examples" +:+ LF));;
  example_code_generation;;
  example_code_review;;
  example_code_explanation;;
  call (print (LF +:+ str_repeat "=" 60));;
  call (print "Examples completed!");;
  call (print (str_repeat "=" 60));;
  call (print (LF +:+ "Note: These examples use mock implementations."));;
  call (print "To use real AI features, set your API key:");;
  call (print "  export OPENAI_API_KEY='your-key-here'");;
  call (print "  or");;
  call (print "  export ANTHROPIC_API_KEY='your-key-here'").

End Run.
End examples.

(** A script runs to [a] with trace [new] under the environment [env]
    when, whatever was traced before, it returns [a], leaves the
    environment as it is and adds [new] to the trace. *)
Definition runs_to {A} (env : gmap string string) (m : Script A) (a : A)
    (new : list event) : Prop :=
  forall evs : list event,
    m (World env evs) = (Value a, World env (evs ++ new)).

(** How often a text occurs in a list of texts. *)
Definition occurrences (t : string) (l : list string) : nat :=
  length (filter (fun x => x = t) l).

(** What [main] of [cto_ai_code.py] prints once the assistant is built. *)
Definition main_tail : list string := [
  "1. Generating code...";
  "# Generated python code for: Create a function to calculate fibonacci numbers"
    +:+ LF
    +:+ LF
    +:+ "def example_function():" +:+ LF
    +:+ "    " +:+ DQ +:+ DQ +:+ DQ +:+ LF
    +:+ "    This is a mock implementation." +:+ LF
    +:+ "    In production, this would use an AI API to generate actual code." +:+ LF
    +:+ "    " +:+ DQ +:+ DQ +:+ DQ +:+ LF
    +:+ "    print(" +:+ DQ +:+ "Hello from CTO AI Code!" +:+ DQ +:+ ")" +:+ LF
    +:+ "    return True" +:+ LF;
  LF +:+ "2. Reviewing code...";
  "Review Score: 85/100";
  "Summary: Code looks good overall. Minor improvements suggested.";
  "Suggestions: Consider adding more comments, Add type hints for better code clarity";
  LF +:+ "3. Explaining code...";
  explanation_text "4"
].

(** From here on a statement that names no platform is about
    [lenient]. *)
#[global] Existing Instance lenient.

(** ** The builtins at work *)

Example split_demo :
  str_split ("a" +:+ LF +:+ "b" +:+ LF) LF = Returned ["a"; "b"; EmptyString]
  /\ str_split "a--b-c" "--" = Returned ["a"; "b-c"]
  /\ str_split "abc" EmptyString = Raised (ValueError "empty separator")
  /\ ascii_upper "openai" = "OPENAI"
  /\ str_of_nat 120 = "120".
Proof. repeat split; reflexivity. Qed.

Example platform_demo :
  @fs_encodes posix_utf8 (SURROGATE +:+ "_API_KEY") = false
  /\ @fs_encodes posix_utf8
       (String "237" (String "178" (String "128" EmptyString))) = true
  /\ @stdout_encodes posix_utf8
       (String "237" (String "178" (String "128" EmptyString))) = false
  /\ @fs_encodes posix_utf8 (EURO +:+ "_API_KEY") = true
  /\ @stdout_encodes posix_utf8 (ROBOT +:+ EURO) = true
  /\ @stdout_encodes posix_ascii_stdout (warning EURO) = false
  /\ @stdout_encodes posix_ascii_stdout (warning "openai") = true.
Proof. repeat split; reflexivity. Qed.

(** ** Splitting on the line feed *)

Lemma append_nil_l (b : string) : EmptyString +:+ b = b.
Proof. reflexivity. Qed.

Lemma append_cons (x : ascii) (a b : string) :
  String x a +:+ b = String x (a +:+ b).
Proof. reflexivity. Qed.

Lemma append_assoc (a b c : string) : (a +:+ b) +:+ c = a +:+ (b +:+ c).
Proof.
  induction a as [|x a IH]; [reflexivity |].
  rewrite !append_cons. now rewrite IH.
Qed.

Lemma append_empty_r (a : string) : a +:+ EmptyString = a.
Proof.
  induction a as [|x a IH]; [reflexivity |].
  rewrite append_cons. now rewrite IH.
Qed.

Lemma count_LF_append (a b : string) :
  count_LF (a +:+ b) = (count_LF a + count_LF b)%nat.
Proof.
  induction a as [|x a IH]; [reflexivity |].
  rewrite append_cons. cbn [count_LF]. rewrite IH. lia.
Qed.

Lemma prefix_LF (c : ascii) (s : string) :
  String.prefix LF (String c s) = Ascii.eqb c "010".
Proof.
  change (String.prefix LF (String c s))
    with (if ascii_dec "010" c then String.prefix EmptyString s else false).
  destruct (ascii_dec "010" c) as [<- | Hne]; [now destruct s |].
  symmetry. apply Ascii.eqb_neq. congruence.
Qed.

Lemma split_from_LF_step (c : ascii) (cur s : string) :
  split_from LF O cur (String c s) =
    if Ascii.eqb c "010"
    then cur :: split_from LF O EmptyString s
    else split_from LF O (cur +:+ String c EmptyString) s.
Proof.
  change (split_from LF O cur (String c s))
    with (if String.prefix LF (String c s)
          then cur :: split_from LF O EmptyString s
          else split_from LF O (cur +:+ String c EmptyString) s).
  now rewrite prefix_LF.
Qed.

Lemma split_from_LF_length (s cur : string) :
  length (split_from LF O cur s) = S (count_LF s).
Proof.
  revert cur. induction s as [|c s IH]; intros cur; [reflexivity |].
  rewrite split_from_LF_step. cbn [count_LF].
  destruct (Ascii.eqb c "010"); cbn [length]; rewrite IH; lia.
Qed.

Lemma split_from_LF_join (s cur : string) :
  str_join LF (split_from LF O cur s) = cur +:+ s.
Proof.
  revert cur. induction s as [|c s IH]; intros cur.
  - cbn [split_from str_join]. now rewrite append_empty_r.
  - rewrite split_from_LF_step.
    destruct (Ascii.eqb_spec c "010") as [-> | Hne].
    + pose proof (split_from_LF_length s EmptyString) as Hlen.
      specialize (IH EmptyString).
      destruct (split_from LF O EmptyString s) as [|x l] eqn:E;
        [discriminate Hlen |].
      change (cur +:+ LF +:+ str_join LF (x :: l) = cur +:+ String "010"%char s).
      rewrite IH. reflexivity.
    + rewrite IH, append_assoc. reflexivity.
Qed.

Lemma split_from_LF_pieces (s cur : string) :
  count_LF cur = O ->
  Forall (fun seg => count_LF seg = O) (split_from LF O cur s).
Proof.
  revert cur. induction s as [|c s IH]; intros cur Hcur.
  - cbn [split_from]. repeat constructor. exact Hcur.
  - rewrite split_from_LF_step.
    destruct (Ascii.eqb c "010") eqn:E.
    + constructor; [exact Hcur | now apply IH].
    + apply IH. rewrite count_LF_append, Hcur. cbn [count_LF]. now rewrite E.
Qed.

(** ** The three operations *)

(** Each operation is its mock, whatever the instance holds. *)
Lemma generate_code_mock (self : CTOAICode) (prompt language : string) :
  generate_code self prompt language = _mock_generate_code self prompt language.
Proof. unfold generate_code. now destruct (negb (truthy (api_key self))). Qed.

Lemma review_code_mock (self : CTOAICode) (code : string) :
  review_code self code = _mock_review_code self code.
Proof. unfold review_code. now destruct (negb (truthy (api_key self))). Qed.

Lemma explain_code_mock (self : CTOAICode) (code : string) :
  explain_code self code = _mock_explain_code self code.
Proof. unfold explain_code. now destruct (negb (truthy (api_key self))). Qed.

(** The mocks read nothing of the instance. *)
Lemma mock_generate_any_self (s1 s2 : CTOAICode) (prompt language : string) :
  _mock_generate_code s1 prompt language = _mock_generate_code s2 prompt language.
Proof. reflexivity. Qed.

Lemma mock_review_any_self (s1 s2 : CTOAICode) (c1 c2 : string) :
  _mock_review_code s1 c1 = _mock_review_code s2 c2.
Proof. reflexivity. Qed.

Lemma mock_explain_any_self (s1 s2 : CTOAICode) (code : string) :
  _mock_explain_code s1 code = _mock_explain_code s2 code.
Proof. reflexivity. Qed.

Lemma nat_of_str_of_nat (n : nat) : nat_of_str (str_of_nat n) = Some n.
Proof.
  unfold nat_of_str, str_of_nat.
  pose proof (DecimalNat.Unsigned.of_to n) as Hback.
  destruct (Nat.to_uint n) as [| d | d | d | d | d | d | d | d | d | d] eqn:E;
    [cbn in *; now subst | ..];
    (rewrite NilZero.usu by discriminate; cbn [option_map]; now rewrite Hback).
Qed.

Lemma str_split_LF (code : string) :
  str_split code LF = Returned (split_from LF O EmptyString code).
Proof. reflexivity. Qed.

Lemma mock_explain_run (self : CTOAICode) (code : string) (w : world) :
  _mock_explain_code self code w =
    (Returned (explanation_text
                 (str_of_nat (length (split_from LF O EmptyString code)))), w).
Proof. reflexivity. Qed.

Lemma mock_review_run (self : CTOAICode) (code : string) (w : world) :
  exists r, _mock_review_code self code w = (Returned r, w) /\ fixed_review r.
Proof.
  eexists. split; [reflexivity |].
  repeat split; reflexivity.
Qed.

(** C1. For every input [code], also the empty one and one made of
    white space only, and for every instance, [review_code] returns the
    same dictionary: ["status"] is ["success"], ["score"] is [85],
    ["issues"] is the empty list, ["suggestions"] holds exactly the two
    fixed sentences in their order, ["summary"] is the fixed sentence,
    and the dictionary has no other key. *)
Theorem review_code_fixed_result :
  forall (self : CTOAICode) (code : string) (w : world),
    exists r : gmap string value,
      review_code self code w = (Returned r, w)
      /\ review_code self EmptyString w = (Returned r, w)
      /\ review_code self ("  " +:+ LF +:+ " ") w = (Returned r, w)
      /\ fixed_review r.
Proof.
  intros self code w. rewrite !review_code_mock.
  destruct (mock_review_run self code w) as (r & Hrun & Hfixed).
  exists r. repeat split; try exact Hrun; apply Hfixed.
Qed.

(** C2. For every input [code], the explanation returned by
    [explain_code] is the fixed text around the decimal writing of the
    number of pieces of [code.split(LF)]; these pieces are the parts of
    [code] between its line feeds, so there is one more of them than
    line feeds.  The empty text reports 1, [a LF b] reports 2 and
    [a LF b LF] reports 3. *)
Theorem explain_code_line_count :
  (forall (self : CTOAICode) (code : string) (w : world),
      exists segments : list string,
        str_split code LF = Returned segments
        /\ str_join LF segments = code
        /\ Forall (fun seg => count_LF seg = O) segments
        /\ length segments = S (count_LF code)
        /\ nat_of_str (str_of_nat (length segments)) = Some (length segments)
        /\ explain_code self code w =
             (Returned (explanation_text (str_of_nat (length segments))), w))
  /\ (forall (self : CTOAICode) (w : world),
        explain_code self EmptyString w = (Returned (explanation_text "1"), w)
        /\ explain_code self ("a" +:+ LF +:+ "b") w =
             (Returned (explanation_text "2"), w)
        /\ explain_code self ("a" +:+ LF +:+ "b" +:+ LF) w =
             (Returned (explanation_text "3"), w)).
Proof.
  split.
  - intros self code w. exists (split_from LF O EmptyString code).
    split; [apply str_split_LF |].
    split; [apply split_from_LF_join |].
    split; [now apply split_from_LF_pieces |].
    split; [apply split_from_LF_length |].
    split; [apply nat_of_str_of_nat |].
    rewrite explain_code_mock. apply mock_explain_run.
  - intros self w. rewrite !explain_code_mock. repeat split.
Qed.

(** C3. [generate_code] is a pure function of its arguments: in any two
    worlds it returns the same text and leaves the world as it was, two
    calls in a row on one instance return twice that text, and the text
    contains both [prompt] and [language]. *)
Theorem generate_code_pure :
  forall (self : CTOAICode) (prompt language : string) (w1 w2 : world),
    exists out : string,
      generate_code self prompt language w1 = (Returned out, w1)
      /\ generate_code self prompt language w2 = (Returned out, w2)
      /\ (a ← generate_code self prompt language;
          b ← generate_code self prompt language;
          mret (a, b)) w1 = (Returned (out, out), w1)
      /\ contains out prompt
      /\ contains out language.
Proof.
  intros self prompt language w1 w2. rewrite !generate_code_mock.
  eexists. repeat split.
  - exists ("# Generated " +:+ language +:+ " code for: "). eexists.
    rewrite !append_assoc. reflexivity.
  - exists "# Generated ". eexists. reflexivity.
Qed.

(** C4. None of the three operations raises: for every instance, all
    texts given as arguments and every world, each of them returns a
    value. *)
Theorem operations_never_raise :
  forall (self : CTOAICode) (prompt language code : string) (w : world),
    returns (generate_code self prompt language) w
    /\ returns (review_code self code) w
    /\ returns (explain_code self code) w.
Proof.
  intros self prompt language code w.
  rewrite generate_code_mock, review_code_mock, explain_code_mock.
  repeat split; eexists; eexists; reflexivity.
Qed.

(** ** The constructor *)

Lemma getenv_calls_log_getenv (name : string) (w : world) :
  getenv_calls (events (log (Getenv name) w)) = getenv_calls (events w) ++ [name].
Proof. unfold getenv_calls, log. cbn [events]. now rewrite omap_app. Qed.

Lemma getenv_calls_log_print (text : string) (w : world) :
  getenv_calls (events (log (Print text) w)) = getenv_calls (events w).
Proof.
  unfold getenv_calls, log. cbn [events]. rewrite omap_app. apply app_nil_r.
Qed.

Lemma printed_log_getenv (name : string) (w : world) :
  printed (events (log (Getenv name) w)) = printed (events w).
Proof.
  unfold printed, log. cbn [events]. rewrite omap_app. apply app_nil_r.
Qed.

Lemma printed_log_print (text : string) (w : world) :
  printed (events (log (Print text) w)) = printed (events w) ++ [text].
Proof. unfold printed, log. cbn [events]. now rewrite omap_app. Qed.

Section Constructor.

Variable str_upper : string -> string.

(** A true explicit key is kept and the world is left as it was. *)
Lemma init_explicit (key : option string) (p : string) (w : world) :
  truthy key = true ->
  __init__ str_upper key p w = (Returned (Build_CTOAICode p key), w).
Proof.
  intros Hkey. unfold __init__. py_unfold. rewrite Hkey.
  cbn [api_key negb]. rewrite Hkey. reflexivity.
Qed.

(** A false explicit key gives way to the environment. *)
Lemma init_fallback (key : option string) (p : string) (w : world) :
  truthy key = false ->
  __init__ str_upper key p w =
    let found := environ w !! env_name str_upper p in
    let w1 := log (Getenv (env_name str_upper p)) w in
    (Returned (Build_CTOAICode p found),
     if truthy found then w1 else log (Print (warning p)) w1).
Proof.
  intros Hkey. unfold __init__. py_unfold. rewrite Hkey.
  cbn [api_key fs_encodes stdout_encodes lenient].
  destruct (truthy (environ w !! env_name str_upper p)); reflexivity.
Qed.

End Constructor.

(** The constructor on any platform, case by case. *)
Lemma init_run {P : Platform} (str_upper : string -> string)
    (key : option string) (p : string) (w : world) :
  __init__ str_upper key p w =
    if truthy key then (Returned (Build_CTOAICode p key), w)
    else if fs_encodes (env_name str_upper p)
    then
      let found := environ w !! env_name str_upper p in
      let w1 := log (Getenv (env_name str_upper p)) w in
      if truthy found then (Returned (Build_CTOAICode p found), w1)
      else if stdout_encodes (warning p)
      then (Returned (Build_CTOAICode p found), log (Print (warning p)) w1)
      else (Raised (UnicodeEncodeError (warning p)), w1)
    else (Raised (UnicodeEncodeError (env_name str_upper p)), w).
Proof.
  unfold __init__. py_unfold.
  destruct (truthy key) eqn:Hkey.
  - cbn [api_key negb]. now rewrite Hkey.
  - destruct (fs_encodes (env_name str_upper p)); [| reflexivity].
    cbn [api_key]. cbv zeta.
    destruct (truthy (environ w !! env_name str_upper p)); [reflexivity |].
    cbn [negb]. now destruct (stdout_encodes (warning p)).
Qed.

(** C5, as amended.  On every platform, for every provider [p] whose
    variable name the encoding of the file system accepts and whose
    warning the standard output can encode, whatever [str.upper] does:
    built with no explicit key in a world whose environment has no
    variable of the name the constructor reads, the constructor returns
    (it does not raise) an instance whose [api_key] is [None]; it looks
    that one variable up and prints the warning and nothing else; and on
    that instance each operation, in any later world, returns what its
    mock returns. *)
Theorem init_without_credential :
  forall (P : Platform) (str_upper : string -> string) (p : string) (w : world),
    fs_encodes (env_name str_upper p) = true ->
    stdout_encodes (warning p) = true ->
    environ w !! env_name str_upper p = None ->
    exists (self : CTOAICode) (w' : world),
      __init__ str_upper None p w = (Returned self, w')
      /\ api_key self = None
      /\ provider self = p
      /\ environ w' = environ w
      /\ events w' =
           events w ++ [Getenv (env_name str_upper p); Print (warning p)]
      /\ printed (events w') = printed (events w) ++ [warning p]
      /\ (forall (prompt language code : string) (w'' : world),
            generate_code self prompt language w'' =
              _mock_generate_code self prompt language w''
            /\ review_code self code w'' = _mock_review_code self code w''
            /\ explain_code self code w'' = _mock_explain_code self code w''
            /\ returns (generate_code self prompt language) w''
            /\ returns (review_code self code) w''
            /\ returns (explain_code self code) w'').
Proof.
  intros P str_upper p w Hfs Hout Hunset.
  exists (Build_CTOAICode p None),
    (log (Print (warning p)) (log (Getenv (env_name str_upper p)) w)).
  split.
  { rewrite init_run. cbn [truthy]. now rewrite Hfs, Hunset, Hout. }
  do 3 (split; [reflexivity |]).
  split; [unfold log; cbn [events environ]; now rewrite <- app_assoc |].
  split; [now rewrite printed_log_print, printed_log_getenv |].
  intros prompt language code w''.
  rewrite generate_code_mock, review_code_mock, explain_code_mock.
  repeat split; eexists; eexists; reflexivity.
Qed.

Lemma init_without_credential_witness :
  @fs_encodes posix_utf8 (env_name ascii_upper "openai") = true
  /\ @stdout_encodes posix_utf8 (warning "openai") = true
  /\ environ (World ∅ []) !! env_name ascii_upper "openai" = None
  /\ exists (self : CTOAICode) (w' : world),
       @__init__ posix_utf8 ascii_upper None "openai" (World ∅ []) =
         (Returned self, w')
       /\ api_key self = None
       /\ events w' =
            [Getenv "OPENAI_API_KEY";
             Print "Warning: No API key provided for openai"].
Proof.
  do 3 (split; [reflexivity |]).
  destruct (init_without_credential posix_utf8 ascii_upper "openai" (World ∅ []))
    as (self & w' & Hrun & Hkey & _ & _ & Hev & _); [reflexivity .. |].
  exists self, w'. repeat split; assumption.
Defined.

(** C5, as the claim words it, fails.  With an ASCII standard output and
    the euro sign as provider, no variable being set, the constructor
    looks the variable up, cannot print its warning and raises: the
    warning is fatal there and no instance is built. *)
Lemma init_without_credential_counterexample :
  ascii_upper EURO = EURO
  /\ environ (World ∅ []) !! env_name ascii_upper EURO = None
  /\ @__init__ posix_ascii_stdout ascii_upper None EURO (World ∅ []) =
       (Raised (UnicodeEncodeError (warning EURO)),
        World ∅ [Getenv (EURO +:+ "_API_KEY")])
  /\ ~ returns (@__init__ posix_ascii_stdout ascii_upper None EURO) (World ∅ [])
  /\ ~ (forall (P : Platform) (str_upper : string -> string) (p : string)
               (w : world),
           environ w !! env_name str_upper p = None ->
           returns (__init__ str_upper None p) w).
Proof.
  assert (Hrun : @__init__ posix_ascii_stdout ascii_upper None EURO (World ∅ []) =
                   (Raised (UnicodeEncodeError (warning EURO)),
                    World ∅ [Getenv (EURO +:+ "_API_KEY")]))
    by reflexivity.
  assert (Hno : ~ returns (@__init__ posix_ascii_stdout ascii_upper None EURO)
                    (World ∅ [])).
  { intros (self & w' & H). rewrite Hrun in H. discriminate H. }
  do 2 (split; [reflexivity |]). split; [exact Hrun |]. split; [exact Hno |].
  intros H. apply Hno. apply H. reflexivity.
Qed.

(** C7. Built with the explicit key ["abc123"] for provider ["openai"],
    the constructor looks nothing up in the environment: it leaves the
    world as it found it (no lookup, no warning) and the instance holds
    ["abc123"], in every world, so whatever [OPENAI_API_KEY] is or is
    not there. *)
Theorem init_explicit_key_ignores_environment :
  forall (str_upper : string -> string),
    (forall w : world,
        __init__ str_upper (Some "abc123") "openai" w =
          (Returned (Build_CTOAICode "openai" (Some "abc123")), w))
    /\ (forall w : world,
          getenv_calls
            (events (snd (__init__ str_upper (Some "abc123") "openai" w))) =
          getenv_calls (events w))
    /\ (forall (env1 env2 : gmap string string) (evs : list event),
          fst (__init__ str_upper (Some "abc123") "openai" (World env1 evs)) =
          fst (__init__ str_upper (Some "abc123") "openai" (World env2 evs)))
    /\ (forall (other : string) (evs : list event),
          __init__ ascii_upper (Some "abc123") "openai"
            (World {[ "OPENAI_API_KEY" := other ]} evs) =
          (Returned (Build_CTOAICode "openai" (Some "abc123")),
           World {[ "OPENAI_API_KEY" := other ]} evs)).
Proof.
  intros str_upper.
  assert (Hrun : forall up w,
             __init__ up (Some "abc123") "openai" w =
               (Returned (Build_CTOAICode "openai" (Some "abc123")), w))
    by (intros up w; now apply init_explicit).
  split; [apply Hrun |].
  split; [intros w; now rewrite Hrun |].
  split; [intros env1 env2 evs; now rewrite !Hrun |].
  intros other evs. apply Hrun.
Qed.

(** C8, as amended.  On every platform, for every provider [p] whose
    variable name the encoding of the file system accepts, whatever
    [str.upper] does: built with no explicit key, the constructor looks
    up exactly one environment variable, the one named by the
    upper-cased [p] followed by [_API_KEY]; and when what the lookup
    gives is a non-empty text, or the standard output can encode the
    warning, the constructor returns and what the lookup gave (the
    value, or [None]) is the [api_key] of the instance.  With the
    upper-casing of ASCII letters, ["openai"] reads [OPENAI_API_KEY] and
    ["anthropic"] reads [ANTHROPIC_API_KEY]. *)
Theorem init_resolves_key_from_environment :
  (forall (P : Platform) (str_upper : string -> string) (p : string)
          (w : world),
      fs_encodes (str_upper p +:+ "_API_KEY") = true ->
      getenv_calls (events (snd (__init__ str_upper None p w))) =
        getenv_calls (events w) ++ [str_upper p +:+ "_API_KEY"]
      /\ (truthy (environ w !! (str_upper p +:+ "_API_KEY")) = true
          \/ stdout_encodes (warning p) = true ->
          exists (self : CTOAICode) (w' : world),
            __init__ str_upper None p w = (Returned self, w')
            /\ provider self = p
            /\ api_key self = environ w !! (str_upper p +:+ "_API_KEY")
            /\ environ w' = environ w))
  /\ env_name ascii_upper "openai" = "OPENAI_API_KEY"
  /\ env_name ascii_upper "anthropic" = "ANTHROPIC_API_KEY"
  /\ (forall (k : string) (evs : list event),
        fst (@__init__ posix_utf8 ascii_upper None "openai"
               (World {[ "OPENAI_API_KEY" := k ]} evs)) =
        Returned (Build_CTOAICode "openai" (Some k))).
Proof.
  split; [| repeat split].
  - intros P str_upper p w Hfs. fold (env_name str_upper p) in *.
    rewrite init_run. cbn [truthy]. rewrite Hfs. cbv zeta. split.
    + destruct (truthy (environ w !! env_name str_upper p));
        [| destruct (stdout_encodes (warning p))]; cbn [snd];
        now rewrite ?getenv_calls_log_print, getenv_calls_log_getenv.
    + intros Hcan.
      destruct (truthy (environ w !! env_name str_upper p)) eqn:Hfound.
      * eexists. eexists. now repeat split.
      * destruct Hcan as [Hcan | Hout]; [discriminate Hcan |].
        rewrite Hout. eexists. eexists. now repeat split.
  - intros k evs. rewrite init_run. cbn [truthy].
    change (@fs_encodes posix_utf8 (env_name ascii_upper "openai")) with true.
    change (@stdout_encodes posix_utf8 (warning "openai")) with true.
    cbv zeta. cbn [environ].
    change (env_name ascii_upper "openai") with "OPENAI_API_KEY".
    rewrite lookup_singleton_eq.
    now destruct (truthy (Some k)).
Qed.

Lemma init_resolves_key_from_environment_witness :
  @fs_encodes posix_utf8 (ascii_upper "anthropic" +:+ "_API_KEY") = true
  /\ @stdout_encodes posix_utf8 (warning "anthropic") = true
  /\ exists (self : CTOAICode) (w' : world),
       @__init__ posix_utf8 ascii_upper None "anthropic"
         (World {[ "ANTHROPIC_API_KEY" := "sk-1" ]} []) = (Returned self, w')
       /\ api_key self = Some "sk-1".
Proof.
  do 2 (split; [reflexivity |]).
  destruct init_resolves_key_from_environment as [Hgen _].
  destruct (Hgen posix_utf8 ascii_upper "anthropic"
              (World {[ "ANTHROPIC_API_KEY" := "sk-1" ]} []))
    as [_ Hret]; [reflexivity |].
  destruct Hret as (self & w' & Hrun & _ & Hkey & _); [right; reflexivity |].
  exists self, w'. split; [exact Hrun |]. rewrite Hkey. reflexivity.
Defined.

(** C8, as the claim words it, fails.  Under POSIX with UTF-8, for the
    provider made of the lone surrogate U+D800 the name of the variable
    cannot be encoded: [os.getenv] raises, nothing is looked up and no
    instance is built. *)
Lemma init_resolves_key_from_environment_counterexample :
  ascii_upper SURROGATE = SURROGATE
  /\ @__init__ posix_utf8 ascii_upper None SURROGATE (World ∅ []) =
       (Raised (UnicodeEncodeError (SURROGATE +:+ "_API_KEY")), World ∅ [])
  /\ getenv_calls
       (events (snd (@__init__ posix_utf8 ascii_upper None SURROGATE (World ∅ []))))
     = []
  /\ ~ (forall (P : Platform) (str_upper : string -> string) (p : string)
               (w : world),
           exists (self : CTOAICode) (w' : world),
             __init__ str_upper None p w = (Returned self, w')
             /\ api_key self = environ w !! (str_upper p +:+ "_API_KEY")
             /\ getenv_calls (events w') =
                  getenv_calls (events w) ++ [str_upper p +:+ "_API_KEY"]).
Proof.
  do 3 (split; [reflexivity |]).
  intros H.
  destruct (H posix_utf8 ascii_upper SURROGATE (World ∅ []))
    as (self & w' & Hrun & _).
  discriminate Hrun.
Qed.



(** ** With and without a key *)

(** C6. Each of the three operations is its mock, as a computation,
    whether the instance holds a key or not: what an instance with a key
    returns is what an instance without one returns, and the same holds
    between any two instances. *)
Theorem operations_ignore_key :
  forall (self : CTOAICode) (prompt language code : string),
    (generate_code self prompt language = _mock_generate_code self prompt language
     /\ review_code self code = _mock_review_code self code
     /\ explain_code self code = _mock_explain_code self code)
    /\ (forall (p key : string),
          generate_code (Build_CTOAICode p (Some key)) prompt language =
            generate_code (Build_CTOAICode p None) prompt language
          /\ review_code (Build_CTOAICode p (Some key)) code =
               review_code (Build_CTOAICode p None) code
          /\ explain_code (Build_CTOAICode p (Some key)) code =
               explain_code (Build_CTOAICode p None) code)
    /\ (forall other : CTOAICode,
          generate_code self prompt language = generate_code other prompt language
          /\ review_code self code = review_code other code
          /\ explain_code self code = explain_code other code).
Proof.
  intros self prompt language code.
  split; [| split].
  - now rewrite generate_code_mock, review_code_mock, explain_code_mock.
  - intros p key.
    now rewrite !generate_code_mock, !review_code_mock, !explain_code_mock.
  - intros other.
    now rewrite !generate_code_mock, !review_code_mock, !explain_code_mock.
Qed.

(** C9. [review_code] does not look at its input: on one instance, and
    even across instances, any two inputs give equal dictionaries and
    leave the world as it was. *)
Theorem review_code_content_independent :
  forall (self : CTOAICode) (code1 code2 : string) (w : world),
    review_code self code1 w = review_code self code2 w
    /\ (exists r : gmap string value,
          review_code self code1 w = (Returned r, w)
          /\ review_code self code2 w = (Returned r, w))
    /\ (forall other : CTOAICode,
          review_code self code1 w = review_code other code2 w).
Proof.
  intros self code1 code2 w. rewrite !review_code_mock.
  split; [reflexivity |]. split.
  - eexists. split; reflexivity.
  - intros other. now rewrite review_code_mock.
Qed.

(** * Further properties of the class *)

(** ** Cancellation in texts *)

Lemma length_append (a b : string) :
  String.length (a +:+ b) = (String.length a + String.length b)%nat.
Proof.
  induction a as [|x a IH]; [reflexivity |].
  rewrite append_cons. cbn [String.length]. now rewrite IH.
Qed.

Lemma append_inj_l (a x y : string) : a +:+ x = a +:+ y -> x = y.
Proof.
  induction a as [|c a IH]; [trivial |].
  rewrite !append_cons. intros H. injection H as H. now apply IH.
Qed.

Lemma append_inj_r (s x y : string) : x +:+ s = y +:+ s -> x = y.
Proof.
  revert y. induction x as [|c x IH]; intros [|d y] H.
  - reflexivity.
  - apply (f_equal String.length) in H.
    rewrite append_cons in H. cbn [String.length] in H.
    rewrite append_nil_l, length_append in H. lia.
  - apply (f_equal String.length) in H.
    rewrite append_cons in H. cbn [String.length] in H.
    rewrite append_nil_l, length_append in H. lia.
  - rewrite !append_cons in H. injection H as -> H. f_equal. now apply IH.
Qed.

Lemma str_of_nat_inj (a b : nat) : str_of_nat a = str_of_nat b -> a = b.
Proof.
  intros H. apply (f_equal nat_of_str) in H.
  rewrite !nat_of_str_of_nat in H. now injection H.
Qed.

Lemma explanation_text_inj (c1 c2 : string) :
  explanation_text c1 = explanation_text c2 -> c1 = c2.
Proof.
  unfold explanation_text. intros H.
  do 3 apply append_inj_l in H.
  now apply append_inj_r in H.
Qed.

Lemma explain_code_run (self : CTOAICode) (code : string) (w : world) :
  explain_code self code w =
    (Returned (explanation_text (str_of_nat (S (count_LF code)))), w).
Proof.
  rewrite explain_code_mock, mock_explain_run. now rewrite split_from_LF_length.
Qed.

Lemma split_from_LF_plain (a cur s : string) :
  count_LF a = O ->
  split_from LF O cur (a +:+ s) = split_from LF O (cur +:+ a) s.
Proof.
  revert cur. induction a as [|c a IH]; intros cur Ha.
  - now rewrite append_nil_l, append_empty_r.
  - cbn [count_LF] in Ha. rewrite append_cons, split_from_LF_step.
    destruct (Ascii.eqb c "010"); [discriminate Ha |].
    rewrite IH by exact Ha. now rewrite append_assoc.
Qed.

Lemma generate_code_run (self : CTOAICode) (prompt language : string) (w : world) :
  generate_code self prompt language w =
    (Returned ("# Generated " +:+ language +:+ " code for: " +:+ prompt +:+ LF
        +:+ LF
        +:+ "def example_function():" +:+ LF
        +:+ "    " +:+ DQ +:+ DQ +:+ DQ +:+ LF
        +:+ "    This is a mock implementation." +:+ LF
        +:+ "    In production, this would use an AI API to generate actual code." +:+ LF
        +:+ "    " +:+ DQ +:+ DQ +:+ DQ +:+ LF
        +:+ "    print(" +:+ DQ +:+ "Hello from CTO AI Code!" +:+ DQ +:+ ")" +:+ LF
        +:+ "    return True" +:+ LF), w).
Proof. now rewrite generate_code_mock. Qed.

(** ** What an explanation tells *)

(** X1. Two explanations are the same text exactly when the two inputs
    have the same number of line feeds: the explanation tells the line
    count of its input and nothing else about it. *)
Theorem explain_code_same_iff :
  forall (s1 s2 : CTOAICode) (code1 code2 : string) (w : world),
    explain_code s1 code1 w = explain_code s2 code2 w
    <-> count_LF code1 = count_LF code2.
Proof.
  intros s1 s2 code1 code2 w. rewrite !explain_code_run. split.
  - intros H.
    assert (Htext : explanation_text (str_of_nat (S (count_LF code1))) =
                    explanation_text (str_of_nat (S (count_LF code2))))
      by congruence.
    apply explanation_text_inj, str_of_nat_inj in Htext. lia.
  - now intros ->.
Qed.

Lemma explain_code_same_iff_witness :
  explain_code (Build_CTOAICode "openai" None) ("a" +:+ LF +:+ "b") (World ∅ []) =
  explain_code (Build_CTOAICode "openai" None) ("cd" +:+ LF) (World ∅ []).
Proof.
  apply (explain_code_same_iff
           (Build_CTOAICode "openai" None) (Build_CTOAICode "openai" None)
           ("a" +:+ LF +:+ "b") ("cd" +:+ LF) (World ∅ [])).
  reflexivity.
Defined.

(** X2. Line counts add up: joining two inputs with a line feed gives
    the sum of what each reports; gluing them with nothing between gives
    one less; so no input reports zero lines. *)
Theorem explain_code_counts_add :
  forall (self : CTOAICode) (a b : string) (w : world),
    exists na nb : nat,
      explain_code self a w = (Returned (explanation_text (str_of_nat na)), w)
      /\ explain_code self b w = (Returned (explanation_text (str_of_nat nb)), w)
      /\ explain_code self (a +:+ LF +:+ b) w =
           (Returned (explanation_text (str_of_nat (na + nb))), w)
      /\ explain_code self (a +:+ b) w =
           (Returned (explanation_text (str_of_nat (na + nb - 1))), w)
      /\ (1 <= na)%nat /\ (1 <= nb)%nat.
Proof.
  intros self a b w. exists (S (count_LF a)), (S (count_LF b)).
  rewrite !explain_code_run, !count_LF_append.
  change (count_LF LF) with 1%nat.
  replace (S (count_LF a) + S (count_LF b))%nat
    with (S (count_LF a + (1 + count_LF b))) by lia.
  replace (S (count_LF a + (1 + count_LF b)) - 1)%nat
    with (S (count_LF a + count_LF b)) by lia.
  repeat split; lia.
Qed.

(** X3. Explaining what [generate_code] returns reports ten lines more
    than there are line feeds in the prompt and the language together:
    the generated text is the prompt line and nine fixed lines. *)
Theorem explain_of_generated :
  forall (self other : CTOAICode) (prompt language : string) (w : world),
    (code ← generate_code self prompt language; explain_code other code) w =
      (Returned (explanation_text
                   (str_of_nat (10 + count_LF prompt + count_LF language))), w).
Proof.
  intros self other prompt language w.
  unfold mbind, py_mbind, py_bind.
  rewrite generate_code_run, explain_code_run.
  rewrite !count_LF_append. cbn [count_LF LF DQ Ascii.eqb Bool.eqb Nat.add].
  replace (S (count_LF language + (count_LF prompt + 9)))
    with (10 + count_LF prompt + count_LF language)%nat by lia.
  reflexivity.
Qed.

(** ** What a generated text tells *)

(** X4. With the language fixed, the generated text determines the
    prompt, and with the prompt fixed it determines the language: two
    calls that differ in one argument only return the same text exactly
    when that argument is the same. *)
Theorem generate_code_injective_each :
  forall (s1 s2 : CTOAICode) (w : world),
    (forall (language prompt1 prompt2 : string),
        generate_code s1 prompt1 language w = generate_code s2 prompt2 language w
        <-> prompt1 = prompt2)
    /\ (forall (prompt language1 language2 : string),
          generate_code s1 prompt language1 w = generate_code s2 prompt language2 w
          <-> language1 = language2).
Proof.
  intros s1 s2 w. split.
  - intros language prompt1 prompt2. rewrite !generate_code_run. split.
    + intros H.
      match type of H with
      | (Returned ?a, _) = (Returned ?b, _) => assert (Htext : a = b) by congruence
      end.
      do 3 apply append_inj_l in Htext. now apply append_inj_r in Htext.
    + now intros ->.
  - intros prompt language1 language2. rewrite !generate_code_run. split.
    + intros H.
      match type of H with
      | (Returned ?a, _) = (Returned ?b, _) => assert (Htext : a = b) by congruence
      end.
      apply append_inj_l in Htext. now apply append_inj_r in Htext.
    + now intros ->.
Qed.

Lemma generate_code_injective_each_witness :
  generate_code (Build_CTOAICode "openai" None) "sort a list" "python" (World ∅ [])
  <> generate_code (Build_CTOAICode "openai" None) "sort a list" "javascript"
       (World ∅ []).
Proof.
  intros H.
  apply (generate_code_injective_each
           (Build_CTOAICode "openai" None) (Build_CTOAICode "openai" None)
           (World ∅ [])) in H.
  discriminate H.
Defined.

(** X5. The pair of prompt and language is not determined by the
    generated text: the words [ code for: ] may be read as the end of
    the language or as the start of the prompt, and both readings give
    one text. *)
Theorem generate_code_header_ambiguous :
  (forall (self : CTOAICode) (a b c : string) (w : world),
      generate_code self c (a +:+ " code for: " +:+ b) w =
      generate_code self (b +:+ " code for: " +:+ c) a w)
  /\ (exists (prompt1 language1 prompt2 language2 : string),
        (prompt1, language1) <> (prompt2, language2)
        /\ forall (self : CTOAICode) (w : world),
             generate_code self prompt1 language1 w =
             generate_code self prompt2 language2 w).
Proof.
  assert (Hlaw : forall (self : CTOAICode) (a b c : string) (w : world),
             generate_code self c (a +:+ " code for: " +:+ b) w =
             generate_code self (b +:+ " code for: " +:+ c) a w).
  { intros self a b c w. rewrite !generate_code_run.
    now rewrite !append_assoc. }
  split; [exact Hlaw |].
  exists "z", ("x" +:+ " code for: " +:+ "y"), ("y" +:+ " code for: " +:+ "z"), "x".
  split; [discriminate |].
  intros self w. apply Hlaw.
Qed.

(** X6. When neither the prompt nor the language holds a line feed, the
    lines of the generated text are one comment line, which holds them
    both, followed by nine lines that depend on neither: what the caller
    passes stays inside the comment. *)
Theorem generate_code_lines :
  forall (self : CTOAICode) (prompt language : string) (w : world),
    count_LF prompt = O ->
    count_LF language = O ->
    (code ← generate_code self prompt language; lift (str_split code LF)) w =
      (Returned [
         "# Generated " +:+ language +:+ " code for: " +:+ prompt;
         EmptyString;
         "def example_function():";
         "    " +:+ DQ +:+ DQ +:+ DQ;
         "    This is a mock implementation.";
         "    In production, this would use an AI API to generate actual code.";
         "    " +:+ DQ +:+ DQ +:+ DQ;
         "    print(" +:+ DQ +:+ "Hello from CTO AI Code!" +:+ DQ +:+ ")";
         "    return True";
         EmptyString
       ], w).
Proof.
  intros self prompt language w Hprompt Hlanguage.
  unfold mbind, py_mbind, py_bind, lift.
  rewrite generate_code_run, str_split_LF.
  do 2 f_equal.
  rewrite (split_from_LF_plain "# Generated ") by reflexivity.
  rewrite (split_from_LF_plain language) by exact Hlanguage.
  rewrite (split_from_LF_plain " code for: ") by reflexivity.
  rewrite (split_from_LF_plain prompt) by exact Hprompt.
  rewrite append_nil_l, !append_assoc.
  reflexivity.
Qed.

Lemma generate_code_lines_witness :
  count_LF "x" = O /\ count_LF "python" = O
  /\ exists lines : list string,
       (code ← generate_code (Build_CTOAICode "openai" None) "x" "python";
        lift (str_split code LF)) (World ∅ []) = (Returned lines, World ∅ [])
       /\ lines !! O = Some "# Generated python code for: x"
       /\ length lines = 10%nat.
Proof.
  split; [reflexivity |]. split; [reflexivity |].
  eexists. split.
  - apply (generate_code_lines (Build_CTOAICode "openai" None) "x" "python");
      reflexivity.
  - split; reflexivity.
Defined.

(** ** What the constructor does in every case *)

(** X7. The whole of the constructor, for every platform, explicit
    key, provider and world.  It never changes the environment.  It
    looks the variable of the provider up, once, exactly when the
    explicit key is [None] or empty and the name of the variable can be
    encoded.  It returns exactly when the explicit key is a non-empty
    text, or the name can be encoded and either the value found is a
    non-empty text or the warning can be printed.  When it returns, the
    instance carries the provider given, its key is the explicit one
    when that is non-empty and else what the lookup gave, and the
    warning, and nothing else, has been printed exactly when that key is
    [None] or empty.  When it raises, nothing has been printed and what
    is raised is [UnicodeEncodeError], for the name or for the
    warning. *)
Theorem init_contract :
  forall (P : Platform) (str_upper : string -> string) (key : option string)
         (p : string) (w : world),
    environ (snd (__init__ str_upper key p w)) = environ w
    /\ getenv_calls (events (snd (__init__ str_upper key p w))) =
         getenv_calls (events w)
         ++ (if truthy key || negb (fs_encodes (env_name str_upper p))
             then [] else [env_name str_upper p])
    /\ (returns (__init__ str_upper key p) w
        <-> truthy key = true
            \/ (fs_encodes (env_name str_upper p) = true
                /\ (truthy (environ w !! env_name str_upper p) = true
                    \/ stdout_encodes (warning p) = true)))
    /\ (forall (self : CTOAICode) (w' : world),
          __init__ str_upper key p w = (Returned self, w') ->
          provider self = p
          /\ api_key self =
               (if truthy key then key else environ w !! env_name str_upper p)
          /\ printed (events w') =
               printed (events w)
               ++ (if truthy (api_key self) then [] else [warning p]))
    /\ (forall (e : exn) (w' : world),
          __init__ str_upper key p w = (Raised e, w') ->
          printed (events w') = printed (events w)
          /\ ((e = UnicodeEncodeError (env_name str_upper p)
               /\ fs_encodes (env_name str_upper p) = false)
              \/ (e = UnicodeEncodeError (warning p)
                  /\ stdout_encodes (warning p) = false))).
Proof.
  intros P str_upper key p w. unfold returns. rewrite init_run.
  destruct (truthy key) eqn:Hkey.
  { cbn [snd orb]. rewrite app_nil_r.
    split; [reflexivity |]. split; [reflexivity |].
    split; [split; [now left | intros _; now eexists; eexists] |].
    split.
    - intros self w' H. injection H as <- <-. cbn [provider api_key].
      rewrite Hkey, app_nil_r. now repeat split.
    - intros e w' H. discriminate H. }
  cbn [orb].
  destruct (fs_encodes (env_name str_upper p)) eqn:Hfs; cbn [negb].
  2: { cbn [snd]. rewrite app_nil_r.
       split; [reflexivity |]. split; [reflexivity |].
       split.
       { split.
         - intros (self & w' & H). discriminate H.
         - intros [H | [H _]]; discriminate H. }
       split.
       - intros self w' H. discriminate H.
       - intros e w' H. injection H as <- <-. split; [reflexivity |].
         left. now split. }
  cbv zeta.
  destruct (truthy (environ w !! env_name str_upper p)) eqn:Hfound.
  { cbn [snd]. rewrite getenv_calls_log_getenv.
    split; [reflexivity |]. split; [reflexivity |].
    split; [split; [intros _; right; split; [reflexivity | now left]
                   | intros _; now eexists; eexists] |].
    split.
    - intros self w' H. injection H as <- <-. cbn [provider api_key].
      rewrite Hfound, printed_log_getenv, app_nil_r. now repeat split.
    - intros e w' H. discriminate H. }
  destruct (stdout_encodes (warning p)) eqn:Hout.
  - cbn [snd]. rewrite getenv_calls_log_print, getenv_calls_log_getenv.
    split; [reflexivity |]. split; [reflexivity |].
    split; [split; [intros _; right; split; [reflexivity | now right]
                   | intros _; now eexists; eexists] |].
    split.
    + intros self w' H. injection H as <- <-. cbn [provider api_key].
      rewrite Hfound, printed_log_print, printed_log_getenv. now repeat split.
    + intros e w' H. discriminate H.
  - cbn [snd]. rewrite getenv_calls_log_getenv.
    split; [reflexivity |]. split; [reflexivity |].
    split.
    { split.
      - intros (self & w' & H). discriminate H.
      - intros [H | [_ [H | H]]]; discriminate H. }
    split.
    + intros self w' H. discriminate H.
    + intros e w' H. injection H as <- <-.
      rewrite printed_log_getenv. split; [reflexivity |]. right. now split.
Qed.

Lemma init_contract_witness :
  @__init__ posix_ascii_stdout ascii_upper None EURO (World ∅ []) =
    (Raised (UnicodeEncodeError (warning EURO)),
     World ∅ [Getenv (EURO +:+ "_API_KEY")])
  /\ (UnicodeEncodeError (warning EURO)
        = UnicodeEncodeError (env_name ascii_upper EURO)
      /\ @fs_encodes posix_ascii_stdout (env_name ascii_upper EURO) = false
      \/ UnicodeEncodeError (warning EURO) = UnicodeEncodeError (warning EURO)
         /\ @stdout_encodes posix_ascii_stdout (warning EURO) = false)
  /\ returns (@__init__ posix_utf8 ascii_upper None "openai") (World ∅ []).
Proof.
  split; [reflexivity |].
  destruct (init_contract posix_ascii_stdout ascii_upper None EURO (World ∅ []))
    as (_ & _ & _ & _ & Hraise).
  split; [apply (Hraise _ _ eq_refl) |].
  apply (init_contract posix_utf8 ascii_upper None "openai" (World ∅ [])).
  right. split; [reflexivity | right; reflexivity].
Defined.

(** X8. With no usable explicit key ([None] or the empty text) and the
    variable of the provider set to a non-empty text, the instance takes
    that text as its key and nothing is printed. *)
Theorem init_key_from_environment :
  forall (str_upper : string -> string) (key : option string) (p k : string)
         (w : world),
    truthy key = false ->
    environ w !! env_name str_upper p = Some k ->
    k <> EmptyString ->
    __init__ str_upper key p w =
      (Returned (Build_CTOAICode p (Some k)),
       log (Getenv (env_name str_upper p)) w)
    /\ printed (events (snd (__init__ str_upper key p w))) = printed (events w).
Proof.
  intros str_upper key p k w Hkey Hset Hk.
  rewrite init_fallback by exact Hkey. cbv zeta. rewrite Hset.
  assert (Htrue : truthy (Some k) = true) by (destruct k; [contradiction | reflexivity]).
  rewrite Htrue. split; [reflexivity |]. cbn [snd]. apply printed_log_getenv.
Qed.

Lemma init_key_from_environment_witness :
  truthy None = false
  /\ environ (World {[ "ANTHROPIC_API_KEY" := "sk-1" ]} [])
       !! env_name ascii_upper "anthropic" = Some "sk-1"
  /\ "sk-1" <> EmptyString
  /\ __init__ ascii_upper None "anthropic"
       (World {[ "ANTHROPIC_API_KEY" := "sk-1" ]} []) =
     (Returned (Build_CTOAICode "anthropic" (Some "sk-1")),
      World {[ "ANTHROPIC_API_KEY" := "sk-1" ]} [Getenv "ANTHROPIC_API_KEY"]).
Proof.
  split; [reflexivity |]. split; [reflexivity |]. split; [discriminate |].
  destruct (init_key_from_environment ascii_upper None "anthropic" "sk-1"
              (World {[ "ANTHROPIC_API_KEY" := "sk-1" ]} [])) as [Hrun _];
    [reflexivity | reflexivity | discriminate |].
  rewrite Hrun. reflexivity.
Defined.



(** * The demonstration scripts *)

(** ** Running a script step by step *)

Lemma runs_to_ret {A} (env : gmap string string) (a : A) :
  runs_to env (mret a) a [].
Proof. intros evs. now rewrite app_nil_r. Qed.

Lemma runs_to_bind {A B} (env : gmap string string) (m : Script A)
    (k : A -> Script B) (a : A) (b : B) (n1 n2 : list event) :
  runs_to env m a n1 ->
  runs_to env (k a) b n2 ->
  runs_to env (m ≫= k) b (n1 ++ n2).
Proof.
  intros Hm Hk evs. unfold mbind, script_mbind, script_bind.
  rewrite Hm, Hk. now rewrite app_assoc.
Qed.

Lemma runs_to_print (env : gmap string string) (text : string) :
  runs_to env (call (print text)) tt [Print text].
Proof. intros evs. reflexivity. Qed.

(** A call that returns without touching the world. *)
Lemma runs_to_call {A} (env : gmap string string) (m : Py A) (a : A) :
  (forall w, m w = (Returned a, w)) ->
  runs_to env (call m) a [].
Proof. intros Hm evs. unfold call. rewrite Hm. now rewrite app_nil_r. Qed.

Lemma runs_to_init (str_upper : string -> string) (env : gmap string string)
    (key : option string) (p : string) :
  truthy key = false ->
  runs_to env (call (__init__ str_upper key p))
    (Build_CTOAICode p (env !! env_name str_upper p))
    (Getenv (env_name str_upper p)
     :: if truthy (env !! env_name str_upper p) then [] else [Print (warning p)]).
Proof.
  intros Hkey evs. unfold call. rewrite init_fallback by exact Hkey.
  cbv zeta. cbn [environ].
  destruct (truthy (env !! env_name str_upper p)); unfold log; cbn [environ events].
  - reflexivity.
  - now rewrite <- app_assoc.
Qed.

Lemma runs_to_getitem (env : gmap string string) (d : gmap string value)
    (key : string) (v : value) :
  d !! key = Some v ->
  runs_to env (getitem d key) v [].
Proof.
  intros Hd evs. unfold getitem. rewrite Hd. now rewrite app_nil_r.
Qed.

Lemma runs_to_for_each {A} (env : gmap string string) (body : A -> Script unit)
    (tr : A -> list event) (l : list A) :
  (forall x, x ∈ l -> runs_to env (body x) tt (tr x)) ->
  runs_to env (for_each l body) tt (concat (map tr l)).
Proof.
  induction l as [|x l IH]; intros Hbody.
  - apply runs_to_ret.
  - cbn [for_each map concat]. eapply runs_to_bind.
    + apply Hbody. now left.
    + apply IH. intros y Hy. apply Hbody. now right.
Qed.

Lemma runs_to_review (env : gmap string string) (self : CTOAICode) (code : string) :
  runs_to env (call (review_code self code))
    (list_to_map [
       ("status", VStr "success");
       ("issues", VList []);
       ("suggestions", VList [
          VStr "Consider adding more comments";
          VStr "Add type hints for better code clarity"
        ]);
       ("score", VInt 85);
       ("summary", VStr "Code looks good overall. Minor improvements suggested.")
     ]) [].
Proof. apply runs_to_call. intros w. now rewrite review_code_mock. Qed.

Lemma runs_to_explain (env : gmap string string) (self : CTOAICode) (code : string) :
  runs_to env (call (explain_code self code))
    (explanation_text (str_of_nat (S (count_LF code)))) [].
Proof. apply runs_to_call. intros w. apply explain_code_run. Qed.

Lemma runs_to_generate (env : gmap string string) (self : CTOAICode)
    (prompt language : string) :
  exists code : string,
    (forall w, generate_code self prompt language w = (Returned code, w))
    /\ runs_to env (call (generate_code self prompt language)) code [].
Proof.
  eexists. split.
  - intros w. apply generate_code_run.
  - apply runs_to_call. intros w. apply generate_code_run.
Qed.

Lemma runs_to_eq {A} (env : gmap string string) (m : Script A) (a : A)
    (n n' : list event) :
  runs_to env m a n -> n = n' -> runs_to env m a n'.
Proof. now intros H <-. Qed.

(** A step that touches nothing: it computes to its value. *)
Lemma runs_to_pure {A} (env : gmap string string) (m : Script A) (a : A) :
  (forall w, m w = (Value a, w)) ->
  runs_to env m a [].
Proof. intros Hm evs. rewrite Hm. now rewrite app_nil_r. Qed.

Ltac run_script :=
  lazymatch goal with
  | |- runs_to _ (mbind _ _) _ _ =>
      eapply runs_to_bind; [run_script | cbv beta iota zeta; run_script]
  | |- runs_to _ (if ?c then _ else _) _ _ =>
      let b := eval vm_compute in c in
      change c with b; cbv iota; run_script
  | |- runs_to _ (for_each ?l _) _ _ =>
      cbn [for_each enumerate]; cbv beta iota zeta; run_script
  | |- runs_to _ (call (print _)) _ _ => apply runs_to_print
  | |- runs_to _ (call (review_code _ _)) _ _ => apply runs_to_review
  | |- runs_to _ (call (explain_code _ _)) _ _ => apply runs_to_explain
  | |- runs_to _ (call (generate_code _ _ _)) _ _ =>
      apply runs_to_call; intros ?; apply generate_code_run
  | |- runs_to _ (call (__init__ _ _ _)) _ _ =>
      apply runs_to_init; reflexivity
  | |- runs_to _ (getitem _ _) _ _ =>
      eapply runs_to_getitem; vm_compute; reflexivity
  | |- runs_to _ _ _ _ => apply runs_to_pure; intros ?; reflexivity
  end.

Lemma getenv_calls_app (a b : list event) :
  getenv_calls (a ++ b) = getenv_calls a ++ getenv_calls b.
Proof. apply omap_app. Qed.

Lemma printed_app (a b : list event) :
  printed (a ++ b) = printed a ++ printed b.
Proof. apply omap_app. Qed.

Lemma printed_map_Print (l : list string) : printed (map Print l) = l.
Proof.
  induction l as [|x l IH]; [reflexivity |].
  change (x :: printed (map Print l) = x :: l). now rewrite IH.
Qed.

Lemma getenv_calls_map_Print (l : list string) : getenv_calls (map Print l) = [].
Proof. induction l as [|x l IH]; [reflexivity | exact IH]. Qed.

(** From a run under an environment to a run in a world. *)
Lemma runs_to_world {A} (m : Script A) (a : A) (new : list event) (w : world) :
  runs_to (environ w) m a new ->
  m w = (Value a, World (environ w) (events w ++ new)).
Proof. intros H. destruct w as [env evs]. apply H. Qed.

(** ** [main] of [cto_ai_code.py] *)

Lemma main_runs (str_upper repr_str : string -> string)
    (env : gmap string string) :
  runs_to env (main str_upper repr_str) tt
    ([Print ("=== CTO AI Code - AI-Powered Code Assistant ===" +:+ LF);
      Getenv (env_name str_upper "openai")]
     ++ (if truthy (env !! env_name str_upper "openai")
         then [] else [Print (warning "openai")])
     ++ map Print main_tail).
Proof.
  eapply runs_to_eq; [unfold main; run_script |].
  destruct (truthy (env !! env_name str_upper "openai")); reflexivity.
Qed.

(** X10. In every world [main] of [cto_ai_code.py] runs to its end
    without raising: the three keys it reads are keys of the dictionary
    [review_code] returns, and what it joins is a list of texts.  It
    looks up one variable, that of provider ["openai"], and leaves the
    environment as it found it. *)
Theorem main_never_raises :
  forall (str_upper repr_str : string -> string) (w : world),
    exists w' : world,
      main str_upper repr_str w = (Value tt, w')
      /\ environ w' = environ w
      /\ getenv_calls (events w') =
           getenv_calls (events w) ++ [env_name str_upper "openai"].
Proof.
  intros str_upper repr_str w. eexists. split.
  - apply runs_to_world, main_runs.
  - split; [reflexivity |]. cbn [events].
    rewrite !getenv_calls_app, getenv_calls_map_Print.
    destruct (truthy (environ w !! env_name str_upper "openai")); reflexivity.
Qed.

(** X11. What [main] of [cto_ai_code.py] prints depends on the world
    through the warning only: it prints the banner, then the warning
    exactly when the variable of ["openai"] is unset or empty, then
    eight texts that are the same in every world, among them the score
    85 out of 100, the two suggestions joined by a comma and the
    explanation of a sample of four lines. *)
Theorem main_output :
  forall (str_upper repr_str : string -> string) (w : world),
    printed (events (snd (main str_upper repr_str w))) =
      printed (events w)
      ++ ["=== CTO AI Code - AI-Powered Code Assistant ===" +:+ LF]
      ++ (if truthy (environ w !! env_name str_upper "openai")
          then [] else [warning "openai"])
      ++ main_tail.
Proof.
  intros str_upper repr_str w.
  rewrite (runs_to_world _ _ _ w (main_runs str_upper repr_str (environ w))).
  cbn [snd events]. rewrite !printed_app, printed_map_Print.
  destruct (truthy (environ w !! env_name str_upper "openai")); reflexivity.
Qed.

(** ** The functions of [examples.py] *)


(** *** On any platform *)

Lemma runs_to_print_on {P : Platform} (env : gmap string string) (text : string) :
  stdout_encodes text = true ->
  runs_to env (call (print text)) tt [Print text].
Proof. intros Hout evs. unfold call, print. now rewrite Hout. Qed.

Lemma runs_to_init_on {P : Platform} (str_upper : string -> string)
    (env : gmap string string) (p : string) :
  fs_encodes (env_name str_upper p) = true ->
  stdout_encodes (warning p) = true ->
  runs_to env (call (__init__ str_upper None p))
    (Build_CTOAICode p (env !! env_name str_upper p))
    (Getenv (env_name str_upper p)
     :: if truthy (env !! env_name str_upper p) then [] else [Print (warning p)]).
Proof.
  intros Hfs Hout evs. unfold call. rewrite init_run.
  cbn [truthy]. rewrite Hfs, Hout. cbv zeta. cbn [environ].
  destruct (truthy (env !! env_name str_upper p)); unfold log; cbn [environ events].
  - reflexivity.
  - now rewrite <- app_assoc.
Qed.

Lemma is_ascii_no_surrogate (keep : bool) (t : string) :
  is_ascii t = true -> no_surrogate keep t = true.
Proof.
  induction t as [|c t IH]; [reflexivity |].
  cbn [is_ascii]. intros H. apply andb_prop in H as [Hc Ht].
  cbn [no_surrogate]. destruct t as [|d t']; [reflexivity |].
  rewrite (IH Ht), andb_true_r.
  apply Nat.ltb_lt in Hc.
  replace (nat_of_ascii c =? 237)%nat with false; [reflexivity |].
  symmetry. apply Nat.eqb_neq. lia.
Qed.

(** [run_script_on Hfs Hascii Hbanner] runs a script on a platform whose
    file system encodes the name of the variable ([Hfs]) and whose
    standard output encodes every ASCII text ([Hascii]) and the banner
    of the examples ([Hbanner]). *)
Ltac run_script_on Hfs Hascii Hbanner :=
  lazymatch goal with
  | |- runs_to _ (mbind _ _) _ _ =>
      eapply runs_to_bind;
      [run_script_on Hfs Hascii Hbanner
      | cbv beta iota zeta; run_script_on Hfs Hascii Hbanner]
  | |- runs_to _ (if ?c then _ else _) _ _ =>
      let b := eval vm_compute in c in
      change c with b; cbv iota; run_script_on Hfs Hascii Hbanner
  | |- runs_to _ (for_each ?l _) _ _ =>
      cbn [for_each enumerate]; cbv beta iota zeta;
      run_script_on Hfs Hascii Hbanner
  | |- runs_to _ (call (print _)) _ _ =>
      apply runs_to_print_on;
      first [exact Hbanner | apply Hascii; vm_compute; reflexivity]
  | |- runs_to _ (call (review_code _ _)) _ _ => apply runs_to_review
  | |- runs_to _ (call (explain_code _ _)) _ _ => apply runs_to_explain
  | |- runs_to _ (call (generate_code _ _ _)) _ _ =>
      apply runs_to_call; intros ?; apply generate_code_run
  | |- runs_to _ (call (__init__ _ _ _)) _ _ =>
      apply runs_to_init_on;
      [exact Hfs | apply Hascii; vm_compute; reflexivity]
  | |- runs_to _ (getitem _ _) _ _ =>
      eapply runs_to_getitem; vm_compute; reflexivity
  | |- runs_to _ _ _ _ => apply runs_to_pure; intros ?; reflexivity
  end.

Lemma examples_main_runs {P : Platform} (str_upper repr_str : string -> string)
    (env : gmap string string) :
  fs_encodes (env_name str_upper "openai") = true ->
  (forall t : string, is_ascii t = true -> stdout_encodes t = true) ->
  stdout_encodes (LF +:+ ROBOT +:+ " CTO AI Code - Examples" +:+ LF) = true ->
  exists tr : list event,
    runs_to env (examples.main str_upper repr_str) tt tr
    /\ getenv_calls tr = [env_name str_upper "openai";
                          env_name str_upper "openai";
                          env_name str_upper "openai"]
    /\ filter (fun t => t <> warning "openai") (printed tr) =
         printed (events (snd (@examples.main lenient ascii_upper (fun s => s)
                                 (World {[ "OPENAI_API_KEY" := "k" ]} []))))
    /\ occurrences (warning "openai") (printed tr) =
         (if truthy (env !! env_name str_upper "openai") then 0 else 3)%nat.
Proof.
  intros Hfs Hascii Hbanner. eexists. split.
  - unfold examples.main, examples.example_code_generation,
      examples.example_code_review, examples.example_code_explanation.
    unfold examples.example_code_generation_body,
      examples.example_code_review_body.
    run_script_on Hfs Hascii Hbanner.
  - destruct (truthy (env !! env_name str_upper "openai"));
      repeat split; vm_compute; reflexivity.
Qed.

(** X13. On every platform whose file system can encode the name of the
    variable of ["openai"] and whose standard output can encode ASCII
    text and the banner with the robot face, and in every world, [main]
    of [examples.py] runs to its end without raising.  Each of its three
    examples builds an assistant of its own, so the variable of
    ["openai"] is looked up three times, and nothing else is; the
    environment is left as it was found. *)
Theorem examples_main_never_raises :
  forall (P : Platform) (str_upper repr_str : string -> string) (w : world),
    fs_encodes (env_name str_upper "openai") = true ->
    (forall t : string, is_ascii t = true -> stdout_encodes t = true) ->
    stdout_encodes (LF +:+ ROBOT +:+ " CTO AI Code - Examples" +:+ LF) = true ->
    exists w' : world,
      examples.main str_upper repr_str w = (Value tt, w')
      /\ environ w' = environ w
      /\ getenv_calls (events w') =
           getenv_calls (events w)
           ++ [env_name str_upper "openai";
               env_name str_upper "openai";
               env_name str_upper "openai"].
Proof.
  intros P str_upper repr_str w Hfs Hascii Hbanner.
  destruct (examples_main_runs str_upper repr_str (environ w) Hfs Hascii Hbanner)
    as (tr & Hrun & Hlookups & _).
  eexists. split; [apply runs_to_world, Hrun |].
  split; [reflexivity |]. cbn [events].
  now rewrite getenv_calls_app, Hlookups.
Qed.

Lemma examples_main_never_raises_witness :
  @fs_encodes posix_utf8 (env_name ascii_upper "openai") = true
  /\ (forall t : string, is_ascii t = true -> @stdout_encodes posix_utf8 t = true)
  /\ @stdout_encodes posix_utf8
       (LF +:+ ROBOT +:+ " CTO AI Code - Examples" +:+ LF) = true
  /\ exists w' : world,
       @examples.main posix_utf8 ascii_upper (fun s => s) (World ∅ []) =
         (Value tt, w')
       /\ getenv_calls (events w') =
            ["OPENAI_API_KEY"; "OPENAI_API_KEY"; "OPENAI_API_KEY"].
Proof.
  split; [reflexivity |].
  split; [intros t Ht; now apply is_ascii_no_surrogate |].
  split; [reflexivity |].
  destruct (examples_main_never_raises posix_utf8 ascii_upper (fun s => s)
              (World ∅ []))
    as (w' & Hrun & _ & Hlookups);
    [reflexivity | intros t Ht; now apply is_ascii_no_surrogate | reflexivity |].
  exists w'. split; [exact Hrun | exact Hlookups].
Defined.

(** X14. On such a platform, what [main] of [examples.py] prints depends
    on the world through the warning only: there are 51 texts that are
    printed in every world, in one order, and among them the warning is
    printed three times, once by each example, when the variable of
    ["openai"] is unset or empty, and not at all when it holds a key.
    The 51 texts show the score 85 out of 100 twice, once for each
    sample reviewed, and one explanation, of a sample of six lines. *)
Theorem examples_main_output :
  exists fixed : list string,
    length fixed = 51%nat
    /\ occurrences "  Score: 85/100" fixed = 2%nat
    /\ occurrences (explanation_text "6") fixed = 1%nat
    /\ forall (P : Platform) (str_upper repr_str : string -> string)
              (w : world),
         fs_encodes (env_name str_upper "openai") = true ->
         (forall t : string, is_ascii t = true -> stdout_encodes t = true) ->
         stdout_encodes (LF +:+ ROBOT +:+ " CTO AI Code - Examples" +:+ LF)
           = true ->
         exists new : list string,
           printed (events (snd (examples.main str_upper repr_str w))) =
             printed (events w) ++ new
           /\ filter (fun t => t <> warning "openai") new = fixed
           /\ occurrences (warning "openai") new =
                (if truthy (environ w !! env_name str_upper "openai")
                 then 0 else 3)%nat
           /\ length new =
                (51 + occurrences (warning "openai") new)%nat.
Proof.
  exists (printed (events (snd (@examples.main lenient ascii_upper (fun s => s)
                                 (World {[ "OPENAI_API_KEY" := "k" ]} []))))).
  do 3 (split; [vm_compute; reflexivity |]).
  intros P str_upper repr_str w Hfs Hascii Hbanner.
  destruct (examples_main_runs str_upper repr_str (environ w) Hfs Hascii Hbanner)
    as (tr & Hrun & _ & Hfixed & Hwarn).
  exists (printed tr).
  rewrite (runs_to_world _ _ _ w Hrun). cbn [snd events].
  split; [apply printed_app |].
  split; [exact Hfixed |].
  split; [exact Hwarn |].
  assert (Hlen : length (filter (fun t => t <> warning "openai") (printed tr))
                 = 51%nat) by (rewrite Hfixed; vm_compute; reflexivity).
  rewrite <- Hlen. clear.
  unfold occurrences. induction (printed tr) as [|x l IH]; [reflexivity |].
  rewrite !filter_cons. cbn [length]. rewrite IH.
  destruct (decide (x = warning "openai")) as [Heq | Hne].
  - rewrite decide_False by (intros Hn; now apply Hn). cbn [length]. lia.
  - rewrite decide_True by exact Hne. cbn [length]. lia.
Qed.

Lemma examples_main_output_witness :
  exists new : list string,
    printed (events (snd (@examples.main posix_utf8 ascii_upper (fun s => s)
                            (World ∅ [])))) = new
    /\ occurrences (warning "openai") new = 3%nat
    /\ length new = 54%nat.
Proof.
  destruct examples_main_output as (fixed & _ & _ & _ & Hall).
  destruct (Hall posix_utf8 ascii_upper (fun s => s) (World ∅ []))
    as (new & Hprinted & _ & Hwarn & Hlen);
    [reflexivity | intros t Ht; now apply is_ascii_no_surrogate | reflexivity |].
  exists new. split; [exact Hprinted |].
  split; [exact Hwarn |]. rewrite Hlen, Hwarn. reflexivity.
Defined.

(** X16. On a platform whose standard output cannot encode the banner
    with the robot face, [main] of [examples.py] raises
    [UnicodeEncodeError] on its first statement: nothing is printed,
    nothing is looked up, and none of the examples runs. *)
Theorem examples_main_raises_at_once :
  forall (P : Platform) (str_upper repr_str : string -> string) (w : world),
    stdout_encodes (LF +:+ ROBOT +:+ " CTO AI Code - Examples" +:+ LF) = false ->
    examples.main str_upper repr_str w =
      (Thrown (Builtin (UnicodeEncodeError
                          (LF +:+ ROBOT +:+ " CTO AI Code - Examples" +:+ LF))),
       w).
Proof.
  intros P str_upper repr_str w Hbanner.
  unfold examples.main, mbind, script_mbind, script_bind, call, print.
  now rewrite Hbanner.
Qed.

Lemma examples_main_raises_at_once_witness :
  @stdout_encodes posix_ascii_stdout
    (LF +:+ ROBOT +:+ " CTO AI Code - Examples" +:+ LF) = false
  /\ @examples.main posix_ascii_stdout ascii_upper (fun s => s)
       (World {[ "OPENAI_API_KEY" := "sk-1" ]} []) =
     (Thrown (Builtin (UnicodeEncodeError
                         (LF +:+ ROBOT +:+ " CTO AI Code - Examples" +:+ LF))),
      World {[ "OPENAI_API_KEY" := "sk-1" ]} []).
Proof.
  split; [reflexivity |].
  apply (examples_main_raises_at_once posix_ascii_stdout ascii_upper
           (fun s => s) (World {[ "OPENAI_API_KEY" := "sk-1" ]} [])).
  reflexivity.
Defined.

(** ** [main] of [cto_ai_code.py] on any platform *)

(** X17. [main] of [cto_ai_code.py] needs less of the platform than the
    examples do: wherever the file system can encode the name of the
    variable of ["openai"] and the standard output can encode ASCII
    text, it runs to its end without raising, in every world; its trace
    is the banner, one lookup, the warning exactly when the variable is
    unset or empty, and then the eight texts that do not depend on the
    world.  An ASCII standard output is enough. *)
Theorem main_on_any_platform :
  forall (P : Platform) (str_upper repr_str : string -> string) (w : world),
    fs_encodes (env_name str_upper "openai") = true ->
    (forall t : string, is_ascii t = true -> stdout_encodes t = true) ->
    main str_upper repr_str w =
      (Value tt,
       World (environ w)
         (events w
          ++ [Print ("=== CTO AI Code - AI-Powered Code Assistant ===" +:+ LF);
              Getenv (env_name str_upper "openai")]
          ++ (if truthy (environ w !! env_name str_upper "openai")
              then [] else [Print (warning "openai")])
          ++ map Print main_tail)).
Proof.
  intros P str_upper repr_str w Hfs Hascii. apply runs_to_world.
  eapply runs_to_eq; [unfold main; run_script_on Hfs Hascii Hascii |].
  destruct (truthy (environ w !! env_name str_upper "openai")); reflexivity.
Qed.

Lemma main_on_any_platform_witness :
  @fs_encodes posix_ascii_stdout (env_name ascii_upper "openai") = true
  /\ (forall t : string,
        is_ascii t = true -> @stdout_encodes posix_ascii_stdout t = true)
  /\ fst (@main posix_ascii_stdout ascii_upper (fun s => s) (World ∅ []))
     = Value tt.
Proof.
  split; [reflexivity |]. split; [intros t Ht; exact Ht |].
  rewrite (main_on_any_platform posix_ascii_stdout ascii_upper (fun s => s)
             (World ∅ [])); [reflexivity | reflexivity | intros t Ht; exact Ht].
Defined.

(** ** Building twice *)

(** X15. Building is repeatable, on every platform: when a construction
    returns, a second one with the same arguments returns as well, and
    its instance has the same provider and the same key as the first,
    since a construction never changes the environment.  (The class
    defines no equality: what is the same is each attribute.)  The
    second construction looks the variable up again and prints the
    warning again exactly when the first one did. *)
Theorem init_repeatable :
  forall (P : Platform) (str_upper : string -> string) (key : option string)
         (p : string) (w : world) (self : CTOAICode) (w1 : world),
    __init__ str_upper key p w = (Returned self, w1) ->
    exists (self2 : CTOAICode) (w2 : world),
      __init__ str_upper key p w1 = (Returned self2, w2)
      /\ provider self2 = provider self
      /\ api_key self2 = api_key self
      /\ getenv_calls (events w2) =
           getenv_calls (events w)
           ++ (if truthy key then []
               else [env_name str_upper p; env_name str_upper p])
      /\ printed (events w2) =
           printed (events w)
           ++ (if truthy (api_key self) then [] else [warning p; warning p]).
Proof.
  intros P str_upper key p w self w1 Hrun.
  rewrite init_run in Hrun. rewrite init_run.
  destruct (truthy key) eqn:Hkey.
  { injection Hrun as <- <-. eexists. eexists.
    split; [reflexivity |]. cbn [provider api_key].
    rewrite Hkey, !app_nil_r. now repeat split. }
  destruct (fs_encodes (env_name str_upper p)); [| discriminate Hrun].
  cbv zeta in *.
  destruct (truthy (environ w !! env_name str_upper p)) eqn:Hfound.
  { injection Hrun as <- <-.
    change (environ (log (Getenv (env_name str_upper p)) w)) with (environ w).
    rewrite Hfound. eexists. eexists.
    split; [reflexivity |]. cbn [provider api_key]. rewrite Hfound.
    rewrite !getenv_calls_log_getenv, !printed_log_getenv,
      <- app_assoc, app_nil_r.
    now repeat split. }
  destruct (stdout_encodes (warning p)); [| discriminate Hrun].
  injection Hrun as <- <-.
  change (environ (log (Print (warning p))
                     (log (Getenv (env_name str_upper p)) w)))
    with (environ w).
  rewrite Hfound. eexists. eexists.
  split; [reflexivity |]. cbn [provider api_key]. rewrite Hfound.
  rewrite !getenv_calls_log_print, !getenv_calls_log_getenv,
    !getenv_calls_log_print, !getenv_calls_log_getenv,
    !printed_log_print, !printed_log_getenv,
    !printed_log_print, !printed_log_getenv, <- !app_assoc.
  now repeat split.
Qed.

Lemma init_repeatable_witness :
  @__init__ posix_utf8 ascii_upper None "openai" (World ∅ []) =
    (Returned (Build_CTOAICode "openai" None),
     World ∅ [Getenv "OPENAI_API_KEY";
              Print "Warning: No API key provided for openai"])
  /\ exists (self2 : CTOAICode) (w2 : world),
       @__init__ posix_utf8 ascii_upper None "openai"
         (World ∅ [Getenv "OPENAI_API_KEY";
                   Print "Warning: No API key provided for openai"]) =
         (Returned self2, w2)
       /\ api_key self2 = None
       /\ printed (events w2) =
            ["Warning: No API key provided for openai";
             "Warning: No API key provided for openai"].
Proof.
  split; [reflexivity |].
  destruct (init_repeatable posix_utf8 ascii_upper None "openai" (World ∅ [])
              (Build_CTOAICode "openai" None)
              (World ∅ [Getenv "OPENAI_API_KEY";
                        Print "Warning: No API key provided for openai"]))
    as (self2 & w2 & Hrun & _ & Hkey & _ & Hprint); [reflexivity |].
  exists self2, w2. repeat split; assumption.
Defined.

(** ** An empty key on any platform *)

(** X18. On every platform an explicit key that is the empty text is
    treated exactly as [None], also where the construction fails: both
    constructions end alike, with the same instance or the same
    exception and the same trace.  In particular both raise when the
    name of the variable cannot be encoded, and both look the variable
    up when it can. *)
Theorem init_empty_key_on_any_platform :
  forall (P : Platform) (str_upper : string -> string) (p : string) (w : world),
    __init__ str_upper (Some EmptyString) p w = __init__ str_upper None p w
    /\ (fs_encodes (env_name str_upper p) = false ->
        __init__ str_upper (Some EmptyString) p w =
          (Raised (UnicodeEncodeError (env_name str_upper p)), w))
    /\ (fs_encodes (env_name str_upper p) = true ->
        getenv_calls (events (snd (__init__ str_upper (Some EmptyString) p w))) =
          getenv_calls (events w) ++ [env_name str_upper p]).
Proof.
  intros P str_upper p w. rewrite !init_run. cbn [truthy].
  split; [reflexivity |]. split; intros Hfs; rewrite Hfs; [reflexivity |].
  cbv zeta.
  destruct (truthy (environ w !! env_name str_upper p));
    [| destruct (stdout_encodes (warning p))]; cbn [snd];
    now rewrite ?getenv_calls_log_print, getenv_calls_log_getenv.
Qed.

Lemma init_empty_key_on_any_platform_witness :
  @fs_encodes posix_utf8 (env_name ascii_upper SURROGATE) = false
  /\ @__init__ posix_utf8 ascii_upper (Some EmptyString) SURROGATE (World ∅ []) =
       (Raised (UnicodeEncodeError (SURROGATE +:+ "_API_KEY")), World ∅ []).
Proof.
  split; [reflexivity |].
  apply (init_empty_key_on_any_platform posix_utf8 ascii_upper SURROGATE
           (World ∅ [])).
  reflexivity.
Defined.
